(** * Concordia: the entity interface and the options-perception agent factory

    A shallow embedding of

    - [concordia/typing/entity.py]: [OutputType], [ActionSpec],
      [DEFAULT_ACTION_SPEC] and the abstract [Entity] interface;
    - [concordia/factory/agent/anish_agent-OptionsPerception.py]:
      [get_pomodoro_reminder], [_get_class_name] and [build_agent].

    Python values are modelled as follows.  A [str] is a [string] holding the
    UTF-8 bytes of the text.  A [dict] whose iteration order is observed is an
    association list in insertion order (module [py]); a [dict] that is only
    queried with [.get] is a [gmap].  A raised exception is a returned
    [Raise], carrying the exception's class name and its message. *)

From Stdlib Require Import Ascii String ZArith.
From stdpp Require Import base option strings list gmap relations.

(** ** Python prelude *)

Module py.

(** The line feed written [\n] in a Python literal, and the double quote. *)
Definition LF : string := String "010"%char EmptyString.
Definition DQ : string := String "034"%char EmptyString.

(** The values a [dict[str, Any]] of flags holds. *)
Inductive Any : Type :=
| PyNone
| PyBool (b : bool)
| PyInt (z : Z)
| PyStr (s : string).

(** [bool(s)] for a [str]: false exactly for the empty string. *)
Definition bool_of_str (s : string) : bool :=
  match s with
  | EmptyString => false
  | String _ _ => true
  end.

(** [bool(v)]: Python's truth value testing. *)
Definition truthy (v : Any) : bool :=
  match v with
  | PyNone => false
  | PyBool b => b
  | PyInt z => negb (z =? 0)%Z
  | PyStr s => bool_of_str s
  end.

(** [d.get(key, default)] on a dict whose order is never observed. *)
Definition get (d : gmap string Any) (key : string) (default_ : Any) : Any :=
  default default_ (d !! key).

(** An exception: the name of its class and its message. *)
Record Exception : Type := mkException {
  exc_class : string;
  exc_message : string
}.

(** The result of a call that may raise. *)
Inductive outcome (A : Type) : Type :=
| Return (a : A)
| Raise (e : Exception).
Arguments Return {A} a.
Arguments Raise {A} e.

(** A [dict] with [str] keys, as the list of its items in insertion order. *)
Definition dict (V : Type) : Type := list (string * V).

(** [d[key] = value]: an existing key keeps its position and gets the new
    value, a new key goes last. *)
Fixpoint setitem {V : Type} (d : dict V) (key : string) (value : V) : dict V :=
  match d with
  | [] => [(key, value)]
  | (k, v) :: d' =>
      if String.eqb k key then (k, value) :: d'
      else (k, v) :: setitem d' key value
  end.

(** [d.update(items)] and the literal [{k1: v1, ...}]: the items are set from
    left to right. *)
Definition update {V : Type} (d : dict V) (items : list (string * V)) : dict V :=
  foldl (fun acc kv => setitem acc kv.1 kv.2) d items.

Definition literal {V : Type} (items : list (string * V)) : dict V :=
  update [] items.

(** [{key(x): x for x in xs}]. *)
Definition comprehension {V : Type} (key : V → string) (xs : list V) : dict V :=
  foldl (fun acc x => setitem acc (key x) x) [] xs.

(** [list(d.keys())], [list(d.values())] and [d.get(key)]. *)
Definition keys {V : Type} (d : dict V) : list string := d.*1.
Definition values {V : Type} (d : dict V) : list V := d.*2.

Fixpoint getitem {V : Type} (d : dict V) (key : string) : option V :=
  match d with
  | [] => None
  | (k, v) :: d' => if String.eqb k key then Some v else getitem d' key
  end.

(** [l.insert(i, x)] for [i >= 0]: [x] goes before position [i], or last when
    the list is shorter. *)
Definition list_insert {A : Type} (i : nat) (x : A) (l : list A) : list A :=
  take i l ++ x :: drop i l.

(** [sub in s] for strings. *)
Fixpoint prefix_of (p s : string) : bool :=
  match p, s with
  | EmptyString, _ => true
  | String a p', String b s' => if Ascii.eqb a b then prefix_of p' s' else false
  | String _ _, EmptyString => false
  end.

Fixpoint contains (s sub : string) : bool :=
  prefix_of sub s ||
  match s with
  | EmptyString => false
  | String _ s' => contains s' sub
  end.

(** [s[-1]], the last character, when [s] is not empty. *)
Fixpoint last_char (s : string) : option ascii :=
  match s with
  | EmptyString => None
  | String c s' =>
      match last_char s' with
      | Some c' => Some c'
      | None => Some c
      end
  end.

(** [c.lower()] on one ASCII character, and [s.lower()] on ASCII text. *)
Definition lower_ascii (c : ascii) : ascii :=
  let n := nat_of_ascii c in
  if (65 <=? n)%nat && (n <=? 90)%nat then ascii_of_nat (n + 32) else c.

Fixpoint lower (s : string) : string :=
  match s with
  | EmptyString => EmptyString
  | String c s' => String (lower_ascii c) (lower s')
  end.

End py.

(** ** [concordia/typing/entity.py] *)

Module entity.

(** [class OutputType(enum.StrEnum)], lines 25-30. *)
Inductive OutputType : Type :=
| FREE
| CHOICE
| FLOAT.

#[global] Instance OutputType_eq_dec : EqDecision OutputType.
Proof. solve_decision. Defined.

(** The members in definition order, as iterating the class yields them. *)
Definition OutputType_members : list OutputType := [FREE; CHOICE; FLOAT].

(** [member.name]. *)
Definition OutputType_name (t : OutputType) : string :=
  match t with
  | FREE => "FREE"
  | CHOICE => "CHOICE"
  | FLOAT => "FLOAT"
  end.

(** [member.value]: [enum.auto()] in a [StrEnum] gives the lower-cased member
    name. *)
Definition OutputType_value (t : OutputType) : string :=
  py.lower (OutputType_name t).

(** [OutputType[name]]: the member of that name, if any. *)
Definition OutputType_by_name (name : string) : option OutputType :=
  find (fun t => String.eqb (OutputType_name t) name) OutputType_members.

(** [OutputType(value)]: the member of that value, if any. *)
Definition OutputType_by_value (value : string) : option OutputType :=
  find (fun t => String.eqb (OutputType_value t) value) OutputType_members.

(** [@dataclasses.dataclass(frozen=True) class ActionSpec], lines 33-48.
    [options] and [tag] default to [None]. *)
Record ActionSpec : Type := mkActionSpec {
  call_to_action : string;
  output_type : OutputType;
  options : option (list string);
  tag : option string
}.

(** The constructor called with the two required fields only. *)
Definition ActionSpec_required (call_to_action : string) (output_type : OutputType)
  : ActionSpec :=
  mkActionSpec call_to_action output_type None None.

(** [DEFAULT_CALL_TO_ACTION], lines 51-59. *)
Definition DEFAULT_CALL_TO_ACTION : string :=
  "What would {name} do for the next {timedelta}? "
  +:+ "Give a specific activity. Pick an activity that "
  +:+ "would normally take about {timedelta} to complete. "
  +:+ "If the selected action has a direct or indirect object then it "
  +:+ "must be specified explicitly. For example, it is valid to respond "
  +:+ "with " +:+ py.DQ +:+ "{name} votes for Caroline because..." +:+ py.DQ +:+ " but not "
  +:+ "valid to respond with " +:+ py.DQ +:+ "{name} votes because..." +:+ py.DQ +:+ ".".

(** [DEFAULT_ACTION_SPEC], lines 61-66. *)
Definition DEFAULT_ACTION_SPEC : ActionSpec :=
  {| call_to_action := DEFAULT_CALL_TO_ACTION;
     output_type := FREE;
     options := None;
     tag := Some "action" |}.

(** [class Entity(metaclass=abc.ABCMeta)], lines 69-114: the three abstract
    members.  An implementation keeps its state in [E]; [act] and [observe]
    return the state they leave behind. *)
Class Entity (E : Type) : Type := {
  name : E → string;
  act : E → ActionSpec → E * string;
  observe : E → string → E
}.

(** A call [entity.act(...)]: [None] stands for a call without the argument,
    which takes the default of line 92. *)
Definition call_act {E : Type} `{Entity E} (self : E) (action_spec : option ActionSpec)
  : E * string :=
  act self (default DEFAULT_ACTION_SPEC action_spec).

End entity.

(** ** [concordia/factory/agent/anish_agent-OptionsPerception.py] *)

Module factory.
Import py.

(** [datetime.timedelta], in microseconds. *)
Definition timedelta : Type := Z.
Definition timedelta_hours (hours : Z) : timedelta := (hours * 3600000000)%Z.

(** What the factory imports from the rest of the library and only passes
    around: the language model, the associative memory, the clock with the
    step size it reports, the type of the time it tells, the document a hint
    is asked about, and the reserved name
    [memory_component.DEFAULT_MEMORY_COMPONENT_NAME]. *)
Class Library : Type := {
  LanguageModel : Type;
  AssociativeMemory : Type;
  MultiIntervalClock : Type;
  Datetime : Type;
  ChainOfThought : Type;
  get_step_size : MultiIntervalClock → timedelta;
  DEFAULT_MEMORY_COMPONENT_NAME : string
}.

(** [formative_memories.AgentConfig]: the fields [build_agent] reads. *)
Record AgentConfig : Type := mkAgentConfig {
  name : string;
  goal : string;
  extras : gmap string Any
}.

(** [measurements.get_channel(channel).on_next]: the sink of a named channel. *)
Record Channel : Type := get_channel { channel : string }.

(** Line 28. *)
Definition DEFAULT_PLANNING_HORIZON : string :=
  "the rest of the day, focusing most on the near term".

Section with_library.
Context `{Library}.

(** Lines 31-37.  The closure keeps [overarching_goal] and [agent_name]; the
    function returned takes [chain_of_thought] and [clock_now]. *)
Definition get_pomodoro_reminder (overarching_goal agent_name : string)
  : ChainOfThought → Datetime → string :=
  fun chain_of_thought clock_now =>
    agent_name +:+ " should stay on topic: " +:+ overarching_goal +:+ ".".

(** The bound methods of the clock handed to components. *)
Inductive ClockMethod : Type :=
| now (self : MultiIntervalClock)
| current_time_interval_str (self : MultiIntervalClock).

(** [legacy_associative_memory.AssociativeMemoryBank(memory)]. *)
Inductive AssociativeMemoryBank : Type :=
| mkAssociativeMemoryBank (memory : AssociativeMemory).

(** The component objects [build_agent] constructs: one constructor per class,
    with the keyword arguments of the call. *)
Inductive Component : Type :=
| Instructions (agent_name : string) (logging_channel : Channel)
| Observation (clock_now : ClockMethod) (timeframe : timedelta)
    (pre_act_key : string) (logging_channel : Channel)
| ObservationSummary (model : LanguageModel) (clock_now : ClockMethod)
    (timeframe_delta_from timeframe_delta_until : timedelta)
    (pre_act_key : string) (logging_channel : Channel)
| ReportFunction (function : ClockMethod) (pre_act_key : string)
    (logging_channel : Channel)
| IdentityWithoutPreAct (model : LanguageModel) (logging_channel : Channel)
    (pre_act_key : string)
| SelfPerception (model : LanguageModel) (components : dict string)
    (pre_act_key : string) (logging_channel : Channel)
| Constant (state : string) (pre_act_key : string) (logging_channel : Channel)
| SituationPerception (model : LanguageModel) (components : dict string)
    (clock_now : ClockMethod) (pre_act_key : string) (logging_channel : Channel)
| PersonBySituation (model : LanguageModel) (components : dict string)
    (clock_now : ClockMethod) (pre_act_key : string) (logging_channel : Channel)
| ScheduledHint (model : LanguageModel) (components : dict string)
    (clock_now : ClockMethod) (hints : list (ChainOfThought → Datetime → string))
    (pre_act_key : string) (logging_channel : Channel)
| AllSimilarMemories (model : LanguageModel) (components : dict string)
    (num_memories_to_retrieve : Z) (pre_act_key : string)
    (logging_channel : Channel)
| AvailableOptionsPerception (model : LanguageModel) (components : dict string)
    (clock_now : ClockMethod) (pre_act_key : string) (logging_channel : Channel)
| BestOptionPerception (model : LanguageModel) (components : dict string)
    (clock_now : ClockMethod) (pre_act_key : string) (logging_channel : Channel)
| MemoryComponent (memory : AssociativeMemoryBank).

(** Lines 40-41: [object_.__class__.__name__]. *)
Definition _get_class_name (object_ : Component) : string :=
  match object_ with
  | Instructions _ _ => "Instructions"
  | Observation _ _ _ _ => "Observation"
  | ObservationSummary _ _ _ _ _ _ => "ObservationSummary"
  | ReportFunction _ _ _ => "ReportFunction"
  | IdentityWithoutPreAct _ _ _ => "IdentityWithoutPreAct"
  | SelfPerception _ _ _ _ => "SelfPerception"
  | Constant _ _ _ => "Constant"
  | SituationPerception _ _ _ _ _ => "SituationPerception"
  | PersonBySituation _ _ _ _ _ => "PersonBySituation"
  | ScheduledHint _ _ _ _ _ _ => "ScheduledHint"
  | AllSimilarMemories _ _ _ _ _ => "AllSimilarMemories"
  | AvailableOptionsPerception _ _ _ _ _ => "AvailableOptionsPerception"
  | BestOptionPerception _ _ _ _ _ => "BestOptionPerception"
  | MemoryComponent _ => "MemoryComponent"
  end.

(** The [components] argument of a component: the names it depends on, each
    with the label its text is quoted under.  Empty when none was given. *)
Definition components_of (c : Component) : dict string :=
  match c with
  | SelfPerception _ components _ _
  | SituationPerception _ components _ _ _
  | PersonBySituation _ components _ _ _
  | ScheduledHint _ components _ _ _ _
  | AllSimilarMemories _ components _ _ _
  | AvailableOptionsPerception _ components _ _ _
  | BestOptionPerception _ components _ _ _ => components
  | _ => []
  end.

(** The dependency names a component declares: the keys of its [components]. *)
Definition dependencies (c : Component) : list string := keys (components_of c).

(** In a registry, [component_name] depends on [dep] when the component
    registered under that name declares [dep]. *)
Definition depends_on (registry : dict Component) (component_name dep : string)
  : Prop :=
  ∃ c, getitem registry component_name = Some c ∧ dep ∈ dependencies c.

(** The [hints] argument of a component: empty when none was given. *)
Definition hints_of (c : Component) : list (ChainOfThought → Datetime → string) :=
  match c with
  | ScheduledHint _ _ _ hints _ _ => hints
  | _ => []
  end.

(** The [pre_act_key] argument of a component, when one was given. *)
Definition pre_act_key_of (c : Component) : option string :=
  match c with
  | Instructions _ _ | MemoryComponent _ => None
  | Observation _ _ k _
  | ObservationSummary _ _ _ _ k _
  | ReportFunction _ k _
  | IdentityWithoutPreAct _ _ k
  | SelfPerception _ _ k _
  | Constant _ k _
  | SituationPerception _ _ _ k _
  | PersonBySituation _ _ _ k _
  | ScheduledHint _ _ _ _ k _
  | AllSimilarMemories _ _ _ k _
  | AvailableOptionsPerception _ _ _ k _
  | BestOptionPerception _ _ _ k _ => Some k
  end.

(** [concat_act_component.ConcatActComponent(...)], lines 291-296. *)
Record ConcatActComponent : Type := mkConcatActComponent {
  act_model : LanguageModel;
  act_clock : MultiIntervalClock;
  component_order : list string;
  act_logging_channel : Channel
}.

(** [entity_agent_with_logging.EntityAgentWithLogging(...)], lines 298-303.
    [component_logging] is the [Measurements] object, kept as the names of the
    channels requested from it, in request order. *)
Record EntityAgentWithLogging : Type := mkEntityAgentWithLogging {
  agent_name : string;
  act_component : ConcatActComponent;
  context_components : dict Component;
  component_logging : list string
}.

(** *** [build_agent], lines 44-305

    The local variables of the function body, in the order the body assigns
    them, as definitions over its arguments.  The locals [agent_name],
    [component_order] and [act_component] end in an underscore here, the bare
    names being the fields of the records above. *)

Section build_agent_body.
Variables (config : AgentConfig) (model : LanguageModel)
  (memory : AssociativeMemory) (clock : MultiIntervalClock).

(** Line 65: [config.extras.get('main_character', False)]. *)
Definition main_character : Any := get (extras config) "main_character" (PyBool false).

(** Lines 66-69. *)
Definition supporting_character_error : Exception :=
  mkException "ValueError"
    ("This function is meant for a main character "
     +:+ "but it was called on a supporting character.").

(** Line 71. *)
Definition agent_name_ : string := name config.

(** Line 73. *)
Definition raw_memory : AssociativeMemoryBank := mkAssociativeMemoryBank memory.

(** Lines 76-79. *)
Definition instructions : Component :=
  Instructions agent_name_ (get_channel "Instructions").

(** Lines 81-87. *)
Definition observation_label : string := LF +:+ "Observation".
Definition observation : Component :=
  Observation (now clock) (get_step_size clock) observation_label
    (get_channel "Observation").

(** Lines 88-96. *)
Definition observation_summary_label : string :=
  LF +:+ "Summary of recent observations".
Definition observation_summary : Component :=
  ObservationSummary model (now clock) (timedelta_hours 24) (timedelta_hours 0)
    observation_summary_label (get_channel "ObservationSummary").

(** Lines 97-101. *)
Definition time_display : Component :=
  ReportFunction (current_time_interval_str clock) (LF +:+ "Current time")
    (get_channel "TimeDisplay").

(** Lines 102-107. *)
Definition identity_label : string := LF +:+ "Identity characteristics".
Definition identity_characteristics : Component :=
  IdentityWithoutPreAct model (get_channel "IdentityWithoutPreAct") identity_label.

(** Lines 108-116. *)
Definition self_perception_label : string :=
  LF +:+ "Question: What kind of person is " +:+ agent_name_ +:+ "?" +:+ LF
  +:+ "Answer".
Definition self_perception : Component :=
  SelfPerception model
    (literal [(_get_class_name identity_characteristics, identity_label)])
    self_perception_label (get_channel "SelfPerception").

(** Lines 117-140.  The segment of line 136 is not an f-string: its
    [{agent_name}] stays as written. *)
Definition paranoia_label : string := LF +:+ agent_name_ +:+ "'s PERCEPTION".
Definition paranoia_state : string :=
  agent_name_ +:+ " is convinced that something is subtly wrong with the people around them. "
  +:+ "To " +:+ agent_name_ +:+ ", it seems that some individuals have inexplicably started behaving "
  +:+ "out of character. Though they may look the same, their quirks, habits, and mannerisms "
  +:+ "seem slightly off. This leads " +:+ agent_name_ +:+ " to suspect that some people may have been replaced "
  +:+ "by imposters. However, " +:+ agent_name_ +:+ " is not fully aware of the source of this paranoia. "
  +:+ "They don’t explicitly believe in " +:+ DQ +:+ "body snatchers," +:+ DQ +:+ " but they have a nagging feeling that "
  +:+ "these changes signal something sinister. " +:+ agent_name_ +:+ " attributes their suspicions to other, "
  +:+ "more rational causes, such as stress, misunderstandings, or bad intentions. "
  +:+ "But deep down, " +:+ agent_name_ +:+ " feels that the world is not as it seems, and "
  +:+ "their trust in others has become fragile. Small deviations in behavior—like a slight shift "
  +:+ "in accent, a forgotten joke, or an unexpected reaction—trigger doubt and suspicion. "
  +:+ agent_name_ +:+ " remains wary of anyone who doesn’t align perfectly with their prior "
  +:+ "understanding of that person’s behavior, even if they can’t fully articulate why. "
  +:+ "Because " +:+ agent_name_ +:+ " is unaware of the full extent of their bias, they never explicitly accuse "
  +:+ "anyone of being an imposter. Instead, " +:+ agent_name_ +:+ " creates other justifications for conflicts "
  +:+ "or mistrust, citing issues like dishonesty, unfairness, or personal grievances. "
  +:+ "To outsiders, " +:+ agent_name_ +:+ " seems paranoid or overcautious, but their reasons always appear "
  +:+ "plausible on the surface. {agent_name} believes they are merely being cautious in a world "
  +:+ "filled with deception, even though they can’t quite see the veil that clouds their judgment.".
Definition paranoia : Component :=
  Constant paranoia_state paranoia_label (get_channel "Perception").

(** Lines 141-158. *)
Definition situation_perception_label : string :=
  LF +:+ "Question: What kind of situation is " +:+ agent_name_ +:+ " in "
  +:+ "right now?" +:+ LF +:+ "Answer".
Definition situation_perception : Component :=
  SituationPerception model
    (literal [(_get_class_name observation, observation_label);
              (_get_class_name observation_summary, observation_summary_label)])
    (now clock) situation_perception_label (get_channel "SituationPerception").

(** Lines 159-174. *)
Definition person_by_situation_label : string :=
  LF +:+ "Question: What would a person like " +:+ agent_name_ +:+ " do in "
  +:+ "a situation like this?" +:+ LF +:+ "Answer".
Definition person_by_situation : Component :=
  PersonBySituation model
    (literal [(_get_class_name self_perception, self_perception_label);
              (_get_class_name situation_perception, situation_perception_label)])
    (now clock) person_by_situation_label (get_channel "PersonBySituation").

(** Lines 176-191. *)
Definition pomodoro_reminder : ChainOfThought → Datetime → string :=
  get_pomodoro_reminder (goal config) agent_name_.
Definition pomodoro_label : string :=
  LF +:+ "Remind " +:+ agent_name_ +:+ " to stay locked in on the task at hand".
Definition pomodoro : Component :=
  ScheduledHint model
    (literal [(_get_class_name observation_summary, observation_summary_label);
              (_get_class_name situation_perception, situation_perception_label);
              (_get_class_name time_display, "The current date/time is")])
    (now clock) [pomodoro_reminder] pomodoro_label (get_channel "PomodoroHint").

(** Lines 193-203. *)
Definition relevant_memories_label : string :=
  LF +:+ "Recalled memories and observations".
Definition relevant_memories : Component :=
  AllSimilarMemories model
    (literal [(_get_class_name observation_summary, observation_summary_label);
              (_get_class_name time_display, "The current date/time is")])
    10 relevant_memories_label (get_channel "AllSimilarMemories").

(** Lines 205-215.  [the_goal_label] is the literal of line 207;
    [goal_label] and [overarching_goal] are the two variables the branches
    assign, [None] in the [else] branch. *)
Definition the_goal_label : string := LF +:+ "Overarching goal".
Definition goal_label : option string :=
  if bool_of_str (goal config) then Some the_goal_label else None.
Definition overarching_goal : option Component :=
  if bool_of_str (goal config)
  then Some (Constant (goal config) the_goal_label (get_channel the_goal_label))
  else None.

(** Lines 205-221: the dict is empty, gets the goal under [if config.goal],
    and is then updated. *)
Definition options_perception_components : dict string :=
  update
    (if bool_of_str (goal config)
     then setitem [] the_goal_label the_goal_label
     else [])
    [(_get_class_name observation, observation_label);
     (_get_class_name observation_summary, observation_summary_label);
     (_get_class_name relevant_memories, relevant_memories_label)].

(** Lines 222-235. *)
Definition options_perception_label : string :=
  LF +:+ "Question: Which options are available to " +:+ agent_name_ +:+ " "
  +:+ "right now?" +:+ LF +:+ "Answer".
Definition options_perception : Component :=
  AvailableOptionsPerception model options_perception_components (now clock)
    options_perception_label (get_channel "AvailableOptionsPerception").

(** Lines 236-259.  The source reuses the name [best_option_perception] for
    the dict of lines 240-248 and then for the component; the dict is
    [best_option_perception_components] here. *)
Definition best_option_perception_label : string :=
  LF +:+ "Question: Of the options available to " +:+ agent_name_ +:+ ", and "
  +:+ "given their goal, which choice of action or strategy is "
  +:+ "best for " +:+ agent_name_ +:+ " to take right now?" +:+ LF +:+ "Answer".
Definition best_option_perception_components : dict string :=
  update
    (if bool_of_str (goal config)
     then setitem [] the_goal_label the_goal_label
     else [])
    [(_get_class_name observation, observation_label);
     (_get_class_name observation_summary, observation_summary_label);
     (_get_class_name relevant_memories, relevant_memories_label);
     (_get_class_name options_perception, options_perception_label)].
Definition best_option_perception : Component :=
  BestOptionPerception model best_option_perception_components (now clock)
    best_option_perception_label (get_channel "BestOptionPerception").

(** Lines 261-278. *)
Definition entity_components : list Component :=
  [ instructions;
    time_display;
    observation;
    observation_summary;
    relevant_memories;
    self_perception;
    paranoia;
    situation_perception;
    person_by_situation;
    options_perception;
    best_option_perception;
    pomodoro;
    identity_characteristics ].

(** Lines 279-284: the registry before the goal is added.  [register] is the
    construction itself, for any tuple of components. *)
Definition register (components : list Component) (memory_component : Component)
  : dict Component :=
  setitem (comprehension _get_class_name components)
    DEFAULT_MEMORY_COMPONENT_NAME memory_component.
Definition components_of_agent_0 : dict Component :=
  register entity_components (MemoryComponent raw_memory).

(** Line 285. *)
Definition component_order_0 : list string := keys components_of_agent_0.

(** Lines 286-289: under [overarching_goal is not None] the goal is stored
    under its label and the label is inserted at index 1 of the order. *)
Definition components_of_agent : dict Component :=
  match overarching_goal with
  | Some overarching_goal => setitem components_of_agent_0 the_goal_label overarching_goal
  | None => components_of_agent_0
  end.
Definition component_order_ : list string :=
  match overarching_goal with
  | Some _ => list_insert 1 the_goal_label component_order_0
  | None => component_order_0
  end.

(** The channels requested from [measurements], lines 78-295, in order. *)
Definition measurements : list string :=
  [ "Instructions"; "Observation"; "ObservationSummary"; "TimeDisplay";
    "IdentityWithoutPreAct"; "SelfPerception"; "Perception";
    "SituationPerception"; "PersonBySituation"; "PomodoroHint";
    "AllSimilarMemories" ]
  ++ (if bool_of_str (goal config) then [the_goal_label] else [])
  ++ [ "AvailableOptionsPerception"; "BestOptionPerception"; "ActComponent" ].

(** Lines 291-296. *)
Definition act_component_ : ConcatActComponent :=
  {| act_model := model;
     act_clock := clock;
     component_order := component_order_;
     act_logging_channel := get_channel "ActComponent" |}.

(** Lines 298-303. *)
Definition agent : EntityAgentWithLogging :=
  {| agent_name := agent_name_;
     act_component := act_component_;
     context_components := components_of_agent;
     component_logging := measurements |}.

(** [build_agent]: [update_time_interval] is deleted on entry (line 64), a
    character not flagged as main raises (lines 65-69), and otherwise the
    agent assembled above is returned (line 305). *)
Definition build_agent (update_time_interval : timedelta)
  : outcome EntityAgentWithLogging :=
  if negb (truthy main_character) then Raise supporting_character_error
  else Return agent.

End build_agent_body.

(** The class names of [entity_components], in the order of the tuple. *)
Definition class_names : list string :=
  [ "Instructions"; "ReportFunction"; "Observation"; "ObservationSummary";
    "AllSimilarMemories"; "SelfPerception"; "Constant"; "SituationPerception";
    "PersonBySituation"; "AvailableOptionsPerception"; "BestOptionPerception";
    "ScheduledHint"; "IdentityWithoutPreAct" ].

(** What lines 206-212 and 241-242 put first in the two dependency mappings. *)
Definition goal_dependency (config : AgentConfig) : list string :=
  if bool_of_str (goal config) then [the_goal_label] else [].

(** The item lines 206-212 and 241-242 put first in the two mappings. *)
Definition goal_item (config : AgentConfig) : list (string * string) :=
  if bool_of_str (goal config) then [(the_goal_label, the_goal_label)] else [].

(** A rank of the registry's names under which every declared dependency
    ranks below its dependant: 0 for the names that declare nothing. *)
Definition dependency_rank (component_name : string) : nat :=
  if String.eqb component_name "BestOptionPerception" then 3
  else if String.eqb component_name "AvailableOptionsPerception" then 2
  else if String.eqb component_name "PersonBySituation" then 2
  else if String.eqb component_name "ScheduledHint" then 2
  else if String.eqb component_name "AllSimilarMemories" then 1
  else if String.eqb component_name "SelfPerception" then 1
  else if String.eqb component_name "SituationPerception" then 1
  else 0.

End with_library.

(** *** Sample inputs

    A library whose collaborators carry no data, and three configurations:
    a main character with a goal, one without, and a supporting character. *)

Definition sample_library : Library :=
  {| LanguageModel := unit;
     AssociativeMemory := unit;
     MultiIntervalClock := unit;
     Datetime := Z;
     ChainOfThought := string;
     get_step_size := fun _ => timedelta_hours 1;
     DEFAULT_MEMORY_COMPONENT_NAME := "__memory__" |}.

Definition sample_model : @LanguageModel sample_library := tt.
Definition sample_memory : @AssociativeMemory sample_library := tt.
Definition sample_clock : @MultiIntervalClock sample_library := tt.

Definition bob : AgentConfig :=
  mkAgentConfig "Bob" "find the key" {[ "main_character" := PyBool true ]}.

Definition ann : AgentConfig :=
  mkAgentConfig "Ann" "" {[ "main_character" := PyBool true ]}.

Definition eve : AgentConfig := mkAgentConfig "Eve" "" ∅.

(** [build_agent] called on a configuration and the sample collaborators, and
    the agent it assembles. *)
Definition sample_build (config : AgentConfig) : outcome EntityAgentWithLogging :=
  build_agent config sample_model sample_memory sample_clock 0%Z.
Definition sample_agent (config : AgentConfig) : EntityAgentWithLogging :=
  agent config sample_model sample_memory sample_clock.

End factory.

(** * Properties *)

(** ** Insertion-ordered dicts *)

Module py_facts.
Import py.

Section dict.
Context {V : Type}.
Implicit Types (d : dict V) (k key : string) (v value : V).

(** Setting a key the dict has keeps the key order. *)
Lemma keys_setitem_elem d key value :
  key ∈ keys d → keys (setitem d key value) = keys d.
Proof.
  unfold keys. induction d as [|[k v] d IH]; simpl; intros Hin.
  - by apply elem_of_nil in Hin.
  - destruct (String.eqb_spec k key) as [->|Hne]; simpl; [done|].
    f_equal. apply IH. apply elem_of_cons in Hin as [?|?]; [by subst|done].
Qed.

(** Setting a new key puts it last. *)
Lemma keys_setitem_fresh d key value :
  key ∉ keys d → keys (setitem d key value) = keys d ++ [key].
Proof.
  unfold keys. induction d as [|[k v] d IH]; simpl; intros Hin; [done|].
  apply not_elem_of_cons in Hin as [Hne Hin].
  destruct (String.eqb_spec k key) as [->|_]; [done|].
  simpl. f_equal. by apply IH.
Qed.

Lemma elem_of_keys_setitem d key value k :
  k ∈ keys (setitem d key value) ↔ k ∈ keys d ∨ k = key.
Proof.
  destruct (decide (key ∈ keys d)) as [Hin|Hin].
  - rewrite keys_setitem_elem by done. split; [by left|by intros [?| ->]].
  - rewrite keys_setitem_fresh by done. rewrite elem_of_app, list_elem_of_singleton. done.
Qed.

Lemma NoDup_keys_setitem d key value :
  NoDup (keys d) → NoDup (keys (setitem d key value)).
Proof.
  intros Hd. destruct (decide (key ∈ keys d)) as [Hin|Hin].
  - by rewrite keys_setitem_elem.
  - rewrite keys_setitem_fresh by done. apply NoDup_app. split_and!; [done| |apply NoDup_singleton].
    intros k Hk ->%list_elem_of_singleton. done.
Qed.

(** The positions the dict had before keep their keys. *)
Lemma lookup_keys_setitem d key value i :
  i < length d → keys (setitem d key value) !! i = keys d !! i.
Proof.
  intros Hi. destruct (decide (key ∈ keys d)) as [Hin|Hin].
  - by rewrite keys_setitem_elem.
  - rewrite keys_setitem_fresh by done. apply lookup_app_l. unfold keys. by rewrite length_fmap.
Qed.

(** Reading after writing. *)
Lemma getitem_setitem d key value k :
  getitem (setitem d key value) k = if decide (key = k) then Some value else getitem d k.
Proof.
  induction d as [|[k' v'] d IH]; simpl.
  - destruct (String.eqb_spec key k); by case_decide.
  - destruct (String.eqb_spec k' key) as [->|Hne]; simpl.
    + destruct (String.eqb_spec key k); by case_decide.
    + rewrite IH. destruct (String.eqb_spec k' k) as [->|?]; [|done]. by case_decide.
Qed.

Lemma getitem_Some d k v : getitem d k = Some v → (k, v) ∈ d.
Proof.
  induction d as [|[k' v'] d IH]; simpl; [done|].
  destruct (String.eqb_spec k' k) as [->|?].
  - intros [= ->]. left.
  - intros ?. right. auto.
Qed.

Lemma getitem_Some_values d k v : getitem d k = Some v → v ∈ values d.
Proof. intros Hk%getitem_Some. unfold values. apply list_elem_of_fmap. by exists (k, v). Qed.

Lemma getitem_is_Some d k : k ∈ keys d → is_Some (getitem d k).
Proof.
  unfold keys. induction d as [|[k' v'] d IH]; simpl.
  - by intros ?%elem_of_nil.
  - intros [->|Hin]%elem_of_cons.
    + rewrite String.eqb_refl. eauto.
    + destruct (String.eqb k' k); eauto.
Qed.

Lemma elem_of_values_setitem d key value v :
  v ∈ values (setitem d key value) → v = value ∨ v ∈ values d.
Proof.
  unfold values. induction d as [|[k' v'] d IH]; simpl.
  - intros ->%list_elem_of_singleton. by left.
  - destruct (String.eqb k' key); simpl; rewrite !elem_of_cons.
    + intros [->|?]; [by left|by right; right].
    + intros [->|[->|?]%IH]; [by right; left|by left|by right; right].
Qed.

Lemma NoDup_keys_comprehension (key : V → string) (xs : list V) :
  NoDup (keys (comprehension key xs)).
Proof.
  unfold comprehension. assert (NoDup (keys ([] : dict V))) as Hnil by constructor.
  revert Hnil. generalize ([] : dict V). induction xs as [|x xs IH]; simpl; intros d Hd; [done|].
  apply IH. by apply NoDup_keys_setitem.
Qed.

(** In a comprehension the last element of a given key wins. *)
Lemma getitem_foldl_setitem (key : V → string) (xs : list V) d k :
  getitem (foldl (fun acc x => setitem acc (key x) x) d xs) k
  = match last (filter (fun x => key x = k) xs) with
    | Some x => Some x
    | None => getitem d k
    end.
Proof.
  revert d. induction xs as [|x xs IH]; simpl; intros d; [done|].
  rewrite IH, getitem_setitem, filter_cons. case_decide.
  - rewrite last_cons. by destruct (last _).
  - done.
Qed.

Lemma getitem_comprehension (key : V → string) (xs : list V) k :
  getitem (comprehension key xs) k = last (filter (fun x => key x = k) xs).
Proof.
  unfold comprehension. rewrite getitem_foldl_setitem. by destruct (last _).
Qed.

End dict.

(** [len(s1 + s2)]. *)
Lemma length_append (s1 s2 : string) :
  String.length (s1 +:+ s2) = String.length s1 + String.length s2.
Proof. induction s1 as [|c s1 IH]; simpl; [done|]. by rewrite IH. Qed.

(** [l.insert(i, x)] puts [x] at index [i] of a list that long, keeps what
    was before it and shifts the rest by one. *)
Lemma list_insert_lookup {A : Type} (i : nat) (x : A) (l : list A) :
  i ≤ length l →
  list_insert i x l !! i = Some x
  ∧ (∀ j, j < i → list_insert i x l !! j = l !! j)
  ∧ (∀ j, i ≤ j → list_insert i x l !! S j = l !! j).
Proof.
  intros Hi. unfold list_insert.
  assert (length (take i l) = i) as Hlen by (rewrite length_take; lia).
  split_and!.
  - rewrite lookup_app_r by lia. by rewrite Hlen, Nat.sub_diag.
  - intros j Hj. rewrite lookup_app_l by lia. by apply lookup_take_lt.
  - intros j Hj. rewrite lookup_app_r by lia. rewrite Hlen.
    replace (S j - i) with (S (j - i)) by lia. simpl.
    rewrite lookup_drop. f_equal. lia.
Qed.

End py_facts.


(** ** The action specification *)

Module entity_facts.
Import py entity.

(** Looking a member up by its own name finds it. *)
Lemma OutputType_by_name_Some (t : OutputType) :
  OutputType_by_name (OutputType_name t) = Some t.
Proof. by destruct t. Qed.

(** [@enum.unique]: no two members share a value. *)
Lemma OutputType_value_inj (t1 t2 : OutputType) :
  OutputType_value t1 = OutputType_value t2 → t1 = t2.
Proof. by destruct t1, t2. Qed.

(** C5, as stated, fails: the output kind of an action specification of kind
    [FLOAT] is named neither FREE, CHOICE nor NUMERIC, and [OutputType] has no
    member named NUMERIC. *)
Lemma FLOAT_is_not_named_NUMERIC :
  (OutputType_name (output_type (mkActionSpec "How many?" FLOAT None None))
     ∉ ["FREE"; "CHOICE"; "NUMERIC"])
  ∧ OutputType_by_name "NUMERIC" = None.
Proof. split; [|done]. apply (bool_decide_unpack _). by vm_compute. Qed.

(** C5, amended: the output kind of every action specification is exactly one
    of [FREE], [CHOICE] and [FLOAT]; these three distinct members, named
    FREE, CHOICE and FLOAT and valued free, choice and float, are all the
    output kinds there are. *)
Theorem output_type_FREE_CHOICE_FLOAT (action_spec : ActionSpec) :
  (output_type action_spec = FREE
   ∨ output_type action_spec = CHOICE
   ∨ output_type action_spec = FLOAT)
  ∧ (∀ t : OutputType, t ∈ OutputType_members)
  ∧ NoDup OutputType_members
  ∧ OutputType_name <$> OutputType_members = ["FREE"; "CHOICE"; "FLOAT"]
  ∧ OutputType_value <$> OutputType_members = ["free"; "choice"; "float"].
Proof.
  split_and!; try done.
  - destruct (output_type action_spec); auto.
  - intros []; unfold OutputType_members; repeat constructor.
  - apply (bool_decide_unpack _). by vm_compute.
Qed.

(** C6, as stated, fails: an action specification of kind [FREE] may carry
    options. *)
Lemma FREE_with_options :
  is_Some (options (mkActionSpec "Pick one." FREE (Some ["yes"; "no"]) None))
  ∧ output_type (mkActionSpec "Pick one." FREE (Some ["yes"; "no"]) None) ≠ CHOICE.
Proof. split; [by eexists|done]. Qed.

(** C6, amended: the options of an action specification are optional and do
    not depend on its output kind.  Built from the required fields alone, a
    specification of any kind has no options; built with options (or with
    none), a specification of any kind holds exactly what it was given; and
    the default specification has none. *)
Theorem options_any_output_type (call_to_action : string) (kind : OutputType)
    (choices : option (list string)) (tag : option string) :
  options (ActionSpec_required call_to_action kind) = None
  ∧ output_type (ActionSpec_required call_to_action kind) = kind
  ∧ options (mkActionSpec call_to_action kind choices tag) = choices
  ∧ output_type (mkActionSpec call_to_action kind choices tag) = kind
  ∧ options DEFAULT_ACTION_SPEC = None.
Proof. by split_and!. Qed.

(** C7: [act] called without a specification acts on [DEFAULT_ACTION_SPEC],
    whose output kind is [FREE], whose call to action is the fixed template
    [DEFAULT_CALL_TO_ACTION] (with its placeholders for the name and the time
    delta), which has no options, and whose tag is "action". *)
Theorem act_default_action_spec {E : Type} `{Entity E} (self : E) :
  call_act self None = act self DEFAULT_ACTION_SPEC
  ∧ output_type DEFAULT_ACTION_SPEC = FREE
  ∧ call_to_action DEFAULT_ACTION_SPEC = DEFAULT_CALL_TO_ACTION
  ∧ contains DEFAULT_CALL_TO_ACTION "{name}" = true
  ∧ contains DEFAULT_CALL_TO_ACTION "{timedelta}" = true
  ∧ options DEFAULT_ACTION_SPEC = None
  ∧ tag DEFAULT_ACTION_SPEC = Some "action".
Proof. split_and!; try done; by vm_compute. Qed.

End entity_facts.

(** ** The agent factory *)

Module factory_facts.
Import py factory py_facts.

Section with_library.
Context `{Library}.
Implicit Types (config : AgentConfig) (model : LanguageModel)
  (memory : AssociativeMemory) (clock : MultiIntervalClock)
  (update_time_interval : timedelta).

(** *** The registry of lines 279-285 *)

Lemma class_names_entity_components config model clock :
  _get_class_name <$> entity_components config model clock = class_names.
Proof. reflexivity. Qed.

Lemma keys_comprehension_entity_components config model clock :
  keys (comprehension _get_class_name (entity_components config model clock))
  = class_names.
Proof. reflexivity. Qed.

Lemma values_comprehension_entity_components config model clock :
  values (comprehension _get_class_name (entity_components config model clock))
  = entity_components config model clock.
Proof. reflexivity. Qed.

Lemma the_goal_label_not_class_name : the_goal_label ∉ class_names.
Proof. apply (bool_decide_unpack _). by vm_compute. Qed.

(** The keys before the goal is added: the class names, then the reserved
    memory name unless it is one of them. *)
Lemma keys_components_of_agent_0 config model memory clock :
  ∃ rest,
    keys (components_of_agent_0 config model memory clock) = class_names ++ rest
    ∧ (rest = [] ∨ rest = [DEFAULT_MEMORY_COMPONENT_NAME]).
Proof.
  unfold components_of_agent_0, register.
  destruct (decide (DEFAULT_MEMORY_COMPONENT_NAME
                    ∈ keys (comprehension _get_class_name
                              (entity_components config model clock))))
    as [Hin|Hin].
  - exists []. rewrite keys_setitem_elem by done. rewrite app_nil_r. auto.
  - exists [DEFAULT_MEMORY_COMPONENT_NAME]. rewrite keys_setitem_fresh by done. auto.
Qed.

(** What the registry holds: the thirteen components, the memory component
    and, when there is one, the goal. *)
Lemma value_of_components_of_agent config model memory clock c :
  c ∈ values (components_of_agent config model memory clock) →
  c ∈ entity_components config model clock
  ∨ c = MemoryComponent (raw_memory memory)
  ∨ overarching_goal config = Some c.
Proof.
  unfold components_of_agent, components_of_agent_0, register.
  destruct (overarching_goal config) as [og|]; intros Hc.
  - apply elem_of_values_setitem in Hc as [->|Hc]; [by right; right|].
    apply elem_of_values_setitem in Hc as [->|Hc]; [by right; left|by left].
  - apply elem_of_values_setitem in Hc as [->|Hc]; [by right; left|by left].
Qed.

Lemma class_name_registered config model memory clock k :
  k ∈ class_names → k ∈ keys (components_of_agent config model memory clock).
Proof.
  intros Hk. unfold components_of_agent, components_of_agent_0, register.
  destruct (overarching_goal config); rewrite !elem_of_keys_setitem; auto.
Qed.

Lemma goal_dependency_registered config model memory clock k :
  k ∈ goal_dependency config →
  k ∈ keys (components_of_agent config model memory clock).
Proof.
  unfold goal_dependency, components_of_agent, overarching_goal.
  destruct (bool_of_str (goal config)); [|by intros ?%elem_of_nil].
  intros ->%list_elem_of_singleton. rewrite elem_of_keys_setitem. by right.
Qed.

(** *** The two ways out of [build_agent] *)

Lemma build_agent_main_character config model memory clock update_time_interval :
  truthy (get (extras config) "main_character" (PyBool false)) = true →
  build_agent config model memory clock update_time_interval
  = Return (agent config model memory clock).
Proof. intros Hmain. unfold build_agent, main_character. by rewrite Hmain. Qed.

Lemma build_agent_Return config model memory clock update_time_interval a :
  build_agent config model memory clock update_time_interval = Return a →
  a = agent config model memory clock.
Proof. unfold build_agent. destruct (negb _); congruence. Qed.

(** *** Labels and dependency names *)

Lemma paranoia_label_not_goal_label config :
  paranoia_label config ≠ the_goal_label.
Proof.
  unfold paranoia_label, the_goal_label, agent_name_. simpl. intros [= Heq].
  assert (String.length (name config) = 3) as Hlen.
  { apply (f_equal String.length) in Heq.
    rewrite !length_append in Heq. simpl in Heq. lia. }
  destruct (name config) as [|a [|b [|c [|d s]]]]; simplify_eq/=.
Qed.

Lemma pre_act_key_of_entity_component config model clock c :
  c ∈ entity_components config model clock →
  pre_act_key_of c ≠ Some the_goal_label.
Proof.
  intros Hc. unfold entity_components in Hc.
  repeat (apply elem_of_cons in Hc as [->|Hc]); try (by apply elem_of_nil in Hc);
    simpl; try discriminate.
  intros Heq. apply (paranoia_label_not_goal_label config). congruence.
Qed.

(** The dependency names of the thirteen components, in tuple order. *)
Lemma dependency_names config model clock :
  dependencies <$> entity_components config model clock
  = [ []; []; []; [];
      ["ObservationSummary"; "ReportFunction"];
      ["IdentityWithoutPreAct"];
      [];
      ["Observation"; "ObservationSummary"];
      ["SelfPerception"; "SituationPerception"];
      goal_dependency config
        ++ ["Observation"; "ObservationSummary"; "AllSimilarMemories"];
      goal_dependency config
        ++ ["Observation"; "ObservationSummary"; "AllSimilarMemories";
            "AvailableOptionsPerception"];
      ["ObservationSummary"; "SituationPerception"; "ReportFunction"];
      [] ].
Proof.
  unfold entity_components, options_perception, best_option_perception,
    options_perception_components, best_option_perception_components,
    goal_dependency, dependencies.
  by destruct (bool_of_str (goal config)).
Qed.

Lemma dependency_of_entity_component config model clock c dep :
  c ∈ entity_components config model clock →
  dep ∈ dependencies c →
  dep ∈ class_names ∨ dep ∈ goal_dependency config.
Proof.
  intros Hc Hdep.
  assert (∃ deps, deps ∈ dependencies <$> entity_components config model clock
                  ∧ dep ∈ deps) as (deps & Hdeps & Hin).
  { exists (dependencies c). split; [|done]. by apply list_elem_of_fmap_2. }
  rewrite dependency_names in Hdeps. clear Hc Hdep. unfold class_names.
  repeat (apply elem_of_cons in Hdeps as [->|Hdeps]);
    try (by apply elem_of_nil in Hin); try (by apply elem_of_nil in Hdeps);
    try (apply elem_of_app in Hin as [Hin|Hin]; [by right|]);
    left; revert dep Hin; apply Forall_forall;
    apply (bool_decide_unpack _); by vm_compute.
Qed.

(** *** The claims about [build_agent] *)

(** C1: for a configuration with a non-empty goal, the order of the agent
    [build_agent] returns starts with the instructions and has the goal's name
    at index 1, the name the goal component is registered under, wherever that
    name sits in the registry itself: there it is the last key, and index 1 is
    the time display. *)
Theorem goal_at_index_1 config model memory clock update_time_interval a :
  bool_of_str (goal config) = true →
  build_agent config model memory clock update_time_interval = Return a →
  component_order (act_component a) !! 0 = Some "Instructions"
  ∧ component_order (act_component a) !! 1 = Some the_goal_label
  ∧ getitem (context_components a) the_goal_label
    = Some (Constant (goal config) the_goal_label (get_channel the_goal_label))
  ∧ keys (context_components a) !! 1 = Some "ReportFunction"
  ∧ last (keys (context_components a)) = Some the_goal_label.
Proof.
  intros Hgoal ->%build_agent_Return. simpl.
  unfold component_order_, components_of_agent, overarching_goal, component_order_0.
  rewrite Hgoal.
  destruct (keys_components_of_agent_0 config model memory clock)
    as (rest & Hkeys & Hrest).
  assert (1 < length (components_of_agent_0 config model memory clock)) as Hlen.
  { rewrite <-(length_fmap fst).
    fold (keys (components_of_agent_0 config model memory clock)).
    rewrite Hkeys. simpl. lia. }
  split_and!.
  - by rewrite Hkeys.
  - apply list_insert_lookup. rewrite Hkeys. simpl. lia.
  - rewrite getitem_setitem. by case_decide.
  - rewrite lookup_keys_setitem by done. by rewrite Hkeys.
  - destruct (decide (the_goal_label
                      ∈ keys (components_of_agent_0 config model memory clock)))
      as [Hin|Hin].
    + rewrite keys_setitem_elem by done. rewrite Hkeys in Hin |- *.
      apply elem_of_app in Hin as [Hin|Hin];
        [by apply the_goal_label_not_class_name in Hin|].
      destruct Hrest as [->| ->]; [by apply elem_of_nil in Hin|].
      apply list_elem_of_singleton in Hin as <-. by rewrite last_snoc.
    + rewrite keys_setitem_fresh by done. by rewrite last_snoc.
Qed.

(** C2, amended: for a configuration whose extras do not flag a main
    character, [build_agent] raises, returning no agent, a [ValueError] whose
    message is fixed: it speaks of a main character and does not contain the
    key [main_character]. *)
Theorem supporting_character_ValueError config model memory clock update_time_interval :
  truthy (get (extras config) "main_character" (PyBool false)) = false →
  build_agent config model memory clock update_time_interval
  = Raise (mkException "ValueError"
      "This function is meant for a main character but it was called on a supporting character.")
  ∧ contains (exc_message supporting_character_error) "main character" = true
  ∧ contains (exc_message supporting_character_error) "main_character" = false.
Proof.
  intros Hmain. unfold build_agent, main_character. rewrite Hmain. simpl.
  split_and!; [done|by vm_compute..].
Qed.

(** C3: in an agent [build_agent] returns, with or without a goal, every
    dependency name declared by a component, be it one the registry holds or
    one of the thirteen of the tuple, is a key of the registry, and looking
    it up there finds a component. *)
Theorem dependencies_registered config model memory clock update_time_interval a
    c dep :
  build_agent config model memory clock update_time_interval = Return a →
  c ∈ values (context_components a) ∨ c ∈ entity_components config model clock →
  dep ∈ dependencies c →
  dep ∈ keys (context_components a) ∧ is_Some (getitem (context_components a) dep).
Proof.
  intros ->%build_agent_Return Hc Hdep. simpl in *.
  assert (dep ∈ keys (components_of_agent config model memory clock)) as Hin.
  { assert (c ∈ entity_components config model clock
            ∨ c = MemoryComponent (raw_memory memory)
            ∨ overarching_goal config = Some c) as [Hc'|[->|Hc']].
    { destruct Hc as [Hc|Hc]; [by apply value_of_components_of_agent|by left]. }
    all: clear Hc; try rename Hc' into Hc.
    - destruct (dependency_of_entity_component _ _ _ _ _ Hc Hdep).
      + by apply class_name_registered.
      + by apply goal_dependency_registered.
    - by apply elem_of_nil in Hdep.
    - unfold overarching_goal in Hc. destruct (bool_of_str (goal config)); simplify_eq.
      by apply elem_of_nil in Hdep. }
  split; [done|]. by apply getitem_is_Some.
Qed.

(** The registry is keyed by class name, so its names are distinct; the
    reserved memory name holds the memory component and any other name the
    last component of that class name.  The thirteen components of
    [build_agent] have distinct class names, so the comprehension keeps all
    thirteen: two of them never meet under one name. *)
Lemma register_keeps_last (components : list Component) (memory_component : Component)
    config model clock :
  NoDup (keys (register components memory_component))
  ∧ getitem (register components memory_component) DEFAULT_MEMORY_COMPONENT_NAME
    = Some memory_component
  ∧ (∀ component_name,
       component_name ≠ DEFAULT_MEMORY_COMPONENT_NAME →
       getitem (register components memory_component) component_name
       = last (filter (fun c => _get_class_name c = component_name) components))
  ∧ NoDup (_get_class_name <$> entity_components config model clock)
  ∧ values (comprehension _get_class_name (entity_components config model clock))
    = entity_components config model clock.
Proof.
  unfold register. split_and!.
  - apply NoDup_keys_setitem, NoDup_keys_comprehension.
  - rewrite getitem_setitem. by case_decide.
  - intros component_name Hne. rewrite getitem_setitem, getitem_comprehension.
    by case_decide.
  - rewrite class_names_entity_components. apply (bool_decide_unpack _). by vm_compute.
  - apply values_comprehension_entity_components.
Qed.

(** C8, amended: for a configuration flagged as a main character whose goal
    is empty, [build_agent] returns an agent; its order is the key order of
    its registry, with nothing inserted; no registered component carries the
    goal's label or declares the goal as a dependency; the goal's name is not
    in the order (provided the library's reserved memory name is not that very
    string); and the goal's name is in the dependency mapping of neither the
    options-perception nor the best-option component. *)
Theorem no_goal_no_goal_component config model memory clock update_time_interval :
  truthy (get (extras config) "main_character" (PyBool false)) = true →
  bool_of_str (goal config) = false →
  ∃ a,
    build_agent config model memory clock update_time_interval = Return a
    ∧ component_order (act_component a) = keys (context_components a)
    ∧ (∀ component_name c,
         getitem (context_components a) component_name = Some c →
         pre_act_key_of c ≠ Some the_goal_label
         ∧ (the_goal_label ∉ dependencies c))
    ∧ (DEFAULT_MEMORY_COMPONENT_NAME ≠ the_goal_label →
       the_goal_label ∉ component_order (act_component a))
    ∧ (the_goal_label ∉ dependencies (options_perception config model clock))
    ∧ (the_goal_label ∉ dependencies (best_option_perception config model clock)).
Proof.
  intros Hmain Hgoal. exists (agent config model memory clock).
  assert (overarching_goal config = None) as Hnone.
  { unfold overarching_goal. by rewrite Hgoal. }
  assert (goal_dependency config = []) as Hnodep.
  { unfold goal_dependency. by rewrite Hgoal. }
  assert (∀ c, c ∈ entity_components config model clock →
               the_goal_label ∉ dependencies c) as Hdeps.
  { intros c Hc Hdep.
    destruct (dependency_of_entity_component _ _ _ _ _ Hc Hdep) as [Hin|Hin].
    - by apply the_goal_label_not_class_name.
    - rewrite Hnodep in Hin. by apply elem_of_nil in Hin. }
  split_and!.
  - by apply build_agent_main_character.
  - simpl. unfold component_order_, components_of_agent. by rewrite Hnone.
  - simpl. intros component_name c Hc%getitem_Some_values.
    apply value_of_components_of_agent in Hc as [Hc|[->|Hc]].
    + split; [by eapply pre_act_key_of_entity_component|by apply Hdeps].
    + split; [done|]. by intros ?%elem_of_nil.
    + congruence.
  - simpl. unfold component_order_, component_order_0. rewrite Hnone.
    destruct (keys_components_of_agent_0 config model memory clock)
      as (rest & -> & Hrest).
    intros Hne [Hin|Hin]%elem_of_app;
      [by apply the_goal_label_not_class_name in Hin|].
    destruct Hrest as [->| ->]; [by apply elem_of_nil in Hin|].
    by apply list_elem_of_singleton in Hin.
  - apply Hdeps. unfold entity_components.
    do 9 apply list_elem_of_further. apply list_elem_of_here.
  - apply Hdeps. unfold entity_components.
    do 10 apply list_elem_of_further. apply list_elem_of_here.
Qed.

(** C9: the agent [build_agent] returns, or the error it raises, does not
    depend on [update_time_interval]: two calls that differ in that argument
    alone give the same result, registry, order and component arguments
    included. *)
Theorem build_agent_ignores_update_time_interval config model memory clock
    (update_time_interval_1 update_time_interval_2 : timedelta) :
  build_agent config model memory clock update_time_interval_1
  = build_agent config model memory clock update_time_interval_2.
Proof. unfold build_agent. by destruct (negb (truthy (main_character config))). Qed.

(** C10: the function [get_pomodoro_reminder] returns is constant in its two
    arguments: it always gives the agent's name, then
    " should stay on topic: ", the goal and a full stop. *)
Theorem pomodoro_reminder_constant (overarching_goal agent_name : string)
    (chain_of_thought chain_of_thought' : ChainOfThought)
    (clock_now clock_now' : Datetime) :
  get_pomodoro_reminder overarching_goal agent_name chain_of_thought clock_now
  = agent_name +:+ " should stay on topic: " +:+ overarching_goal +:+ "."
  ∧ get_pomodoro_reminder overarching_goal agent_name chain_of_thought clock_now
    = get_pomodoro_reminder overarching_goal agent_name chain_of_thought' clock_now'.
Proof. unfold get_pomodoro_reminder. by split. Qed.

End with_library.

(** *** The claims at the sample inputs *)

#[local] Existing Instance sample_library.

(** C1 at [bob]. *)
Lemma goal_at_index_1_bob :
  bool_of_str (goal bob) = true
  ∧ sample_build bob = Return (sample_agent bob)
  ∧ component_order (act_component (sample_agent bob)) !! 0 = Some "Instructions"
  ∧ component_order (act_component (sample_agent bob)) !! 1 = Some the_goal_label
  ∧ getitem (context_components (sample_agent bob)) the_goal_label
    = Some (Constant (goal bob) the_goal_label (get_channel the_goal_label))
  ∧ keys (context_components (sample_agent bob)) !! 1 = Some "ReportFunction"
  ∧ last (keys (context_components (sample_agent bob))) = Some the_goal_label.
Proof.
  split; [reflexivity|]. split; [by vm_compute|].
  apply (goal_at_index_1 bob sample_model sample_memory sample_clock 0%Z);
    [reflexivity|by vm_compute].
Defined.

(** C2, as stated, fails at [eve], whose extras are empty: the error raised
    is not of class ConfigurationError and its message does not contain the
    flag [main_character]. *)
Lemma supporting_character_not_ConfigurationError :
  truthy (get (extras eve) "main_character" (PyBool false)) = false
  ∧ sample_build eve = Raise supporting_character_error
  ∧ exc_class supporting_character_error ≠ "ConfigurationError"
  ∧ contains (exc_message supporting_character_error) "main_character" = false.
Proof. split_and!; by vm_compute. Qed.

(** C2, amended, at [eve]. *)
Lemma supporting_character_ValueError_eve :
  truthy (get (extras eve) "main_character" (PyBool false)) = false
  ∧ sample_build eve
    = Raise (mkException "ValueError"
        "This function is meant for a main character but it was called on a supporting character.")
  ∧ contains (exc_message supporting_character_error) "main character" = true
  ∧ contains (exc_message supporting_character_error) "main_character" = false.
Proof.
  split; [by vm_compute|].
  apply (supporting_character_ValueError eve sample_model sample_memory sample_clock 0%Z).
  by vm_compute.
Defined.

(** C3 at [bob]: the best-option component declares the goal, and the goal
    is registered. *)
Lemma dependencies_registered_bob :
  sample_build bob = Return (sample_agent bob)
  ∧ (best_option_perception bob sample_model sample_clock
       ∈ values (context_components (sample_agent bob))
     ∨ best_option_perception bob sample_model sample_clock
       ∈ entity_components bob sample_model sample_clock)
  ∧ the_goal_label ∈ dependencies (best_option_perception bob sample_model sample_clock)
  ∧ the_goal_label ∈ keys (context_components (sample_agent bob))
  ∧ is_Some (getitem (context_components (sample_agent bob)) the_goal_label).
Proof.
  assert (the_goal_label
          ∈ dependencies (best_option_perception bob sample_model sample_clock)) as Hdep.
  { apply (bool_decide_unpack _). by vm_compute. }
  assert (best_option_perception bob sample_model sample_clock
          ∈ entity_components bob sample_model sample_clock) as Hc.
  { unfold entity_components. do 10 apply list_elem_of_further.
    apply list_elem_of_here. }
  split; [by vm_compute|]. split; [by right|]. split; [exact Hdep|].
  apply (dependencies_registered bob sample_model sample_memory sample_clock 0%Z
           (sample_agent bob)
           (best_option_perception bob sample_model sample_clock) the_goal_label);
    [by vm_compute|by right|exact Hdep].
Defined.

(** C8, as stated, fails at [eve], whose goal is empty: [build_agent] raises. *)
Lemma no_goal_supporting_character_raises :
  bool_of_str (goal eve) = false
  ∧ sample_build eve = Raise supporting_character_error
  ∧ ∀ a, sample_build eve ≠ Return a.
Proof. split_and!; [done|by vm_compute|]. intros a. by vm_compute. Qed.

(** C8, amended, at [ann], a main character without a goal. *)
Lemma no_goal_no_goal_component_ann :
  truthy (get (extras ann) "main_character" (PyBool false)) = true
  ∧ bool_of_str (goal ann) = false
  ∧ ∃ a,
      sample_build ann = Return a
      ∧ component_order (act_component a) = keys (context_components a)
      ∧ (∀ component_name c,
           getitem (context_components a) component_name = Some c →
           pre_act_key_of c ≠ Some the_goal_label
           ∧ (the_goal_label ∉ dependencies c))
      ∧ (DEFAULT_MEMORY_COMPONENT_NAME ≠ the_goal_label →
         the_goal_label ∉ component_order (act_component a))
      ∧ (the_goal_label ∉ dependencies (options_perception ann sample_model sample_clock))
      ∧ (the_goal_label
           ∉ dependencies (best_option_perception ann sample_model sample_clock)).
Proof.
  split; [by vm_compute|]. split; [reflexivity|].
  apply (no_goal_no_goal_component ann sample_model sample_memory sample_clock 0%Z);
    [by vm_compute|reflexivity].
Defined.

End factory_facts.

(** * Further properties *)

(** ** The output kinds *)

Module entity_more.
Import py entity.

(** X11: looking a member up by name or by value finds exactly the member of
    that name or that value, and nothing for any other string. *)
Theorem OutputType_lookup (s : string) (t : OutputType) :
  (OutputType_by_name s = Some t ↔ OutputType_name t = s)
  ∧ (OutputType_by_value s = Some t ↔ OutputType_value t = s).
Proof.
  unfold OutputType_by_name, OutputType_by_value. split; split.
  - by intros [_ Heq%String.eqb_eq]%find_some.
  - intros <-. by destruct t.
  - by intros [_ Heq%String.eqb_eq]%find_some.
  - intros <-. by destruct t.
Qed.

End entity_more.

(** ** The registry, the order and the labels *)

Module factory_more.
Import py factory py_facts factory_facts.

(** A component is one of the thirteen; an item is labelled by [c]. *)
Ltac entity_component_elem :=
  unfold entity_components;
  repeat first [ apply list_elem_of_here | apply list_elem_of_further ].

Ltac labelled_by c :=
  right; exists c; split; [left; split; [entity_component_elem|reflexivity]|reflexivity].

Section with_library.
Context `{Library}.
Implicit Types (config : AgentConfig) (model : LanguageModel)
  (memory : AssociativeMemory) (clock : MultiIntervalClock)
  (update_time_interval : timedelta).

(** *** Lists and strings *)

(** [l.insert(i, x)] adds [x] and nothing else. *)
Lemma list_insert_Permutation {A : Type} (i : nat) (x : A) (l : list A) :
  list_insert i x l ≡ₚ x :: l.
Proof.
  unfold list_insert. rewrite <-Permutation_middle. by rewrite take_drop.
Qed.

Lemma elem_of_list_insert {A : Type} (i : nat) (x y : A) (l : list A) :
  y ∈ list_insert i x l ↔ y = x ∨ y ∈ l.
Proof. by rewrite list_insert_Permutation, elem_of_cons. Qed.

(** *** The keys of the registry *)

Lemma NoDup_keys_components_of_agent_0 config model memory clock :
  NoDup (keys (components_of_agent_0 config model memory clock)).
Proof. apply NoDup_keys_setitem, NoDup_keys_comprehension. Qed.

Lemma keys_components_of_agent_0_fresh config model memory clock :
  DEFAULT_MEMORY_COMPONENT_NAME ∉ class_names →
  keys (components_of_agent_0 config model memory clock)
  = class_names ++ [DEFAULT_MEMORY_COMPONENT_NAME].
Proof.
  intros Hfresh. unfold components_of_agent_0, register.
  by rewrite keys_setitem_fresh.
Qed.

Lemma the_goal_label_not_key_0 config model memory clock :
  DEFAULT_MEMORY_COMPONENT_NAME ≠ the_goal_label →
  the_goal_label ∉ keys (components_of_agent_0 config model memory clock).
Proof.
  intros Hne. unfold components_of_agent_0, register.
  rewrite elem_of_keys_setitem. intros [Hin|Heq]; [|done].
  by apply the_goal_label_not_class_name.
Qed.

(** X1: [build_agent] returns an agent exactly when the extras hold a truthy
    value under [main_character]; a missing key counts as [False]. *)
Theorem build_agent_returns_iff config model memory clock update_time_interval :
  (∃ a, build_agent config model memory clock update_time_interval = Return a)
  ↔ ∃ flag, extras config !! "main_character" = Some flag ∧ truthy flag = true.
Proof.
  unfold build_agent, main_character, get.
  destruct (extras config !! "main_character") as [flag|]; simpl.
  - destruct (truthy flag) eqn:Hflag; simpl.
    + split; eauto.
    + split; [by intros [a ?]|]. intros (flag' & [= <-] & ?). congruence.
  - split; [by intros [a ?]|]. by intros (flag & ? & _).
Qed.

(** X2: when the reserved memory name is none of the class names, the order
    of a returned agent is the instructions, the goal's label if there is a
    goal, the other twelve class names in tuple order, and the memory name. *)
Theorem component_order_explicit config model memory clock update_time_interval a :
  DEFAULT_MEMORY_COMPONENT_NAME ∉ class_names →
  build_agent config model memory clock update_time_interval = Return a →
  component_order (act_component a)
  = "Instructions" :: goal_dependency config
    ++ [ "ReportFunction"; "Observation"; "ObservationSummary";
         "AllSimilarMemories"; "SelfPerception"; "Constant";
         "SituationPerception"; "PersonBySituation";
         "AvailableOptionsPerception"; "BestOptionPerception";
         "ScheduledHint"; "IdentityWithoutPreAct";
         DEFAULT_MEMORY_COMPONENT_NAME ].
Proof.
  intros Hfresh ->%build_agent_Return. simpl.
  unfold component_order_, component_order_0, overarching_goal, goal_dependency.
  rewrite keys_components_of_agent_0_fresh by done.
  by destruct (bool_of_str (goal config)).
Qed.

(** X3: every name in the order of a returned agent is registered: looking
    it up in the registry finds a component. *)
Theorem component_order_resolves config model memory clock update_time_interval a
    component_name :
  build_agent config model memory clock update_time_interval = Return a →
  component_name ∈ component_order (act_component a) →
  is_Some (getitem (context_components a) component_name).
Proof.
  intros ->%build_agent_Return Hin. simpl in *. apply getitem_is_Some.
  unfold component_order_, components_of_agent, component_order_0 in *.
  destruct (overarching_goal config) as [og|]; [|done].
  rewrite elem_of_keys_setitem. apply elem_of_list_insert in Hin. tauto.
Qed.

(** X4: when the reserved memory name is not the goal's label, the order of
    a returned agent lists the keys of its registry, each once. *)
Theorem component_order_Permutation config model memory clock update_time_interval a :
  DEFAULT_MEMORY_COMPONENT_NAME ≠ the_goal_label →
  build_agent config model memory clock update_time_interval = Return a →
  component_order (act_component a) ≡ₚ keys (context_components a)
  ∧ NoDup (component_order (act_component a))
  ∧ length (component_order (act_component a)) = length (context_components a).
Proof.
  intros Hne ->%build_agent_Return. simpl.
  assert (component_order_ config model memory clock
          ≡ₚ keys (components_of_agent config model memory clock)) as Hperm.
  { unfold component_order_, components_of_agent, component_order_0.
    destruct (overarching_goal config) as [og|]; [|done].
    rewrite keys_setitem_fresh by by apply the_goal_label_not_key_0.
    rewrite list_insert_Permutation. by rewrite Permutation_app_comm. }
  split_and!; [done| |].
  - rewrite Hperm. unfold components_of_agent.
    destruct (overarching_goal config); [apply NoDup_keys_setitem|];
      apply NoDup_keys_components_of_agent_0.
  - rewrite Hperm. unfold keys. by rewrite length_fmap.
Qed.


(** *** The components by name *)

(** The class name and the [components] mapping of each of the thirteen. *)
Lemma named_components config model clock :
  (fun c => (_get_class_name c, components_of c)) <$> entity_components config model clock
  = [ ("Instructions", []);
      ("ReportFunction", []);
      ("Observation", []);
      ("ObservationSummary", []);
      ("AllSimilarMemories",
        [ ("ObservationSummary", observation_summary_label);
          ("ReportFunction", "The current date/time is") ]);
      ("SelfPerception", [ ("IdentityWithoutPreAct", identity_label) ]);
      ("Constant", []);
      ("SituationPerception",
        [ ("Observation", observation_label);
          ("ObservationSummary", observation_summary_label) ]);
      ("PersonBySituation",
        [ ("SelfPerception", self_perception_label config);
          ("SituationPerception", situation_perception_label config) ]);
      ("AvailableOptionsPerception",
        goal_item config
        ++ [ ("Observation", observation_label);
             ("ObservationSummary", observation_summary_label);
             ("AllSimilarMemories", relevant_memories_label) ]);
      ("BestOptionPerception",
        goal_item config
        ++ [ ("Observation", observation_label);
             ("ObservationSummary", observation_summary_label);
             ("AllSimilarMemories", relevant_memories_label);
             ("AvailableOptionsPerception", options_perception_label config) ]);
      ("ScheduledHint",
        [ ("ObservationSummary", observation_summary_label);
          ("SituationPerception", situation_perception_label config);
          ("ReportFunction", "The current date/time is") ]);
      ("IdentityWithoutPreAct", []) ].
Proof.
  unfold entity_components, options_perception, best_option_perception,
    options_perception_components, best_option_perception_components, goal_item.
  by destruct (bool_of_str (goal config)).
Qed.

Lemma named_component_elem config model clock c :
  c ∈ entity_components config model clock →
  (_get_class_name c, components_of c)
  ∈ (fun c => (_get_class_name c, components_of c)) <$> entity_components config model clock.
Proof. intros Hc. by apply (list_elem_of_fmap_2 (fun c => (_get_class_name c, components_of c))). Qed.

Lemma getitem_comprehension_entity_component config model clock c :
  c ∈ entity_components config model clock →
  getitem (comprehension _get_class_name (entity_components config model clock))
    (_get_class_name c) = Some c.
Proof.
  intros Hc. unfold entity_components in Hc.
  repeat (apply elem_of_cons in Hc as [->|Hc]); try reflexivity.
  by apply elem_of_nil in Hc.
Qed.

Lemma getitem_comprehension_Some {V : Type} (key : V → string) (xs : list V) k x :
  getitem (comprehension key xs) k = Some x → x ∈ xs ∧ key x = k.
Proof.
  rewrite getitem_comprehension. intros Hlast%last_Some_elem_of.
  apply list_elem_of_filter in Hlast. tauto.
Qed.

Lemma getitem_components_of_agent config model memory clock k c :
  getitem (components_of_agent config model memory clock) k = Some c →
  (c ∈ entity_components config model clock ∧ _get_class_name c = k)
  ∨ c = MemoryComponent (raw_memory memory)
  ∨ overarching_goal config = Some c.
Proof.
  unfold components_of_agent, components_of_agent_0, register.
  destruct (overarching_goal config) as [og|]; rewrite ?getitem_setitem;
    repeat case_decide; intros Hk; simplify_eq; auto;
    left; by apply getitem_comprehension_Some.
Qed.

(** X5: in a returned agent each of the thirteen components is found under
    its own class name, unless that is the reserved memory name. *)
Theorem component_registered_under_class_name config model memory clock
    update_time_interval a c :
  build_agent config model memory clock update_time_interval = Return a →
  c ∈ entity_components config model clock →
  _get_class_name c ≠ DEFAULT_MEMORY_COMPONENT_NAME →
  getitem (context_components a) (_get_class_name c) = Some c.
Proof.
  intros ->%build_agent_Return Hc Hne. simpl.
  assert (_get_class_name c ≠ the_goal_label) as Hgoal.
  { intros Heq. apply the_goal_label_not_class_name. rewrite <-Heq.
    rewrite <-(class_names_entity_components config model clock).
    by apply list_elem_of_fmap_2. }
  unfold components_of_agent, components_of_agent_0, register.
  destruct (overarching_goal config) as [og|]; rewrite !getitem_setitem;
    repeat case_decide; try congruence;
    by apply getitem_comprehension_entity_component.
Qed.

(** X6: in a returned agent the reserved memory name holds the memory
    component wrapping the [memory] argument, unless that name is the goal's
    label. *)
Theorem memory_component_registered config model memory clock update_time_interval a :
  build_agent config model memory clock update_time_interval = Return a →
  DEFAULT_MEMORY_COMPONENT_NAME ≠ the_goal_label →
  getitem (context_components a) DEFAULT_MEMORY_COMPONENT_NAME
  = Some (MemoryComponent (mkAssociativeMemoryBank memory)).
Proof.
  intros ->%build_agent_Return Hne. simpl.
  unfold components_of_agent, components_of_agent_0, register.
  destruct (overarching_goal config) as [og|]; rewrite !getitem_setitem;
    repeat case_decide; first [reflexivity|congruence].
Qed.

(** *** The dependency graph *)

Lemma dependency_rank_entity_component config model clock c dep :
  c ∈ entity_components config model clock →
  dep ∈ dependencies c →
  dependency_rank dep < dependency_rank (_get_class_name c).
Proof.
  intros Hc%named_component_elem Hdep. rewrite named_components in Hc.
  unfold dependencies, keys in Hdep.
  apply list_elem_of_fmap in Hdep as ([dep' label] & -> & Hdep). simpl.
  revert Hdep Hc.
  generalize (_get_class_name c) (components_of c). intros k items Hdep Hc.
  repeat (apply elem_of_cons in Hc as [[= -> ->]|Hc]);
    try (by apply elem_of_nil in Hc); try (by apply elem_of_nil in Hdep);
    try (apply elem_of_app in Hdep as [Hdep|Hdep];
         [unfold goal_item in Hdep; destruct (bool_of_str (goal config));
          [apply list_elem_of_singleton in Hdep as [= -> ->]; vm_compute; lia
          |by apply elem_of_nil in Hdep]|]);
    repeat (apply elem_of_cons in Hdep as [[= -> ->]|Hdep]; [vm_compute; lia|]);
    by apply elem_of_nil in Hdep.
Qed.

Lemma dependency_rank_depends_on config model memory clock k dep :
  depends_on (components_of_agent config model memory clock) k dep →
  dependency_rank dep < dependency_rank k.
Proof.
  intros (c & Hc & Hdep).
  apply getitem_components_of_agent in Hc as [[Hc <-]|[->|Hc]].
  - by eapply dependency_rank_entity_component.
  - by apply elem_of_nil in Hdep.
  - unfold overarching_goal in Hc. destruct (bool_of_str (goal config)); simplify_eq.
    by apply elem_of_nil in Hdep.
Qed.

(** X7: in a returned agent no registered name reaches itself through
    declared dependencies; in particular none declares itself. *)
Theorem dependencies_acyclic config model memory clock update_time_interval a
    component_name :
  build_agent config model memory clock update_time_interval = Return a →
  ¬ tc (depends_on (context_components a)) component_name component_name.
Proof.
  intros ->%build_agent_Return. simpl.
  assert (∀ x y, tc (depends_on (components_of_agent config model memory clock)) x y →
                 dependency_rank y < dependency_rank x) as Hrank.
  { intros x y Htc. induction Htc as [x y Hxy|x y z Hxy _ IH].
    - by eapply dependency_rank_depends_on.
    - apply dependency_rank_depends_on in Hxy. lia. }
  intros Hloop%Hrank. lia.
Qed.


(** *** Texts and labels *)

Lemma prefix_of_append (p s t : string) :
  prefix_of p s = true → prefix_of p (s +:+ t) = true.
Proof.
  revert s. induction p as [|a p IH]; intros [|b s]; simpl; try done.
  destruct (Ascii.eqb a b); [apply IH|done].
Qed.

Lemma contains_append_l (s t sub : string) :
  contains s sub = true → contains (s +:+ t) sub = true.
Proof.
  induction s as [|b s IH]; simpl.
  - rewrite orb_false_r. destruct sub; [|done]. intros _. by destruct t.
  - intros [Hp|Hc]%orb_true_iff; apply orb_true_iff.
    + left. by apply (prefix_of_append sub (String b s) t).
    + right. by apply IH.
Qed.

Lemma contains_append_r (s t sub : string) :
  contains t sub = true → contains (s +:+ t) sub = true.
Proof.
  intros Ht. induction s as [|b s IH]; simpl; [done|].
  apply orb_true_iff. by right.
Qed.

(** X9: whatever the agent's name, the text of the paranoia component still
    holds the placeholder [{agent_name}] of line 136 unformatted. *)
Theorem paranoia_state_keeps_placeholder config :
  contains (paranoia_state config) "{agent_name}" = true.
Proof.
  unfold paranoia_state.
  repeat first [ by vm_compute | apply contains_append_r ].
Qed.

(** X8: each item of a [components] mapping names one of the components (or
    the goal) and carries that component's own [pre_act_key] as its label;
    the one exception is the time display, quoted as
    "The current date/time is" while its [pre_act_key] is "\nCurrent time". *)
Theorem dependency_label_is_pre_act_key config model clock c dep label :
  c ∈ entity_components config model clock →
  (dep, label) ∈ components_of c →
  (dep = "ReportFunction" ∧ label = "The current date/time is"
   ∧ pre_act_key_of (time_display clock) = Some (LF +:+ "Current time"))
  ∨ ∃ c',
      ((c' ∈ entity_components config model clock ∧ _get_class_name c' = dep)
       ∨ (overarching_goal config = Some c' ∧ dep = the_goal_label))
      ∧ pre_act_key_of c' = Some label.
Proof.
  intros Hc%named_component_elem Hdep. rewrite named_components in Hc.
  revert Hdep Hc.
  generalize (_get_class_name c) (components_of c). intros k items Hdep Hc.
  assert ((dep, label) ∈ goal_item config →
          ∃ c', overarching_goal config = Some c' ∧ dep = the_goal_label
                ∧ pre_act_key_of c' = Some label) as Hgoal.
  { unfold goal_item, overarching_goal.
    destruct (bool_of_str (goal config)); [|by intros ?%elem_of_nil].
    intros [= -> ->]%list_elem_of_singleton. by eexists. }
  repeat (apply elem_of_cons in Hc as [[= -> ->]|Hc]);
    try (by apply elem_of_nil in Hc); try (by apply elem_of_nil in Hdep);
    try (apply elem_of_app in Hdep as [(c' & ? & ? & ?)%Hgoal|Hdep];
         [right; exists c'; auto|]);
    repeat (apply elem_of_cons in Hdep as [[= -> ->]|Hdep];
            [first [ by left
                   | labelled_by (observation clock)
                   | labelled_by (observation_summary model clock)
                   | labelled_by (identity_characteristics model)
                   | labelled_by (relevant_memories model clock)
                   | labelled_by (self_perception config model)
                   | labelled_by (situation_perception config model clock)
                   | labelled_by (options_perception config model clock) ]|]);
    by apply elem_of_nil in Hdep.
Qed.

(** X12: a returned agent holds the scheduled hint, goal or no goal, with
    one hint, which always says the configured name should stay on topic: the
    configured goal; with an empty goal it ends in "topic: .". *)
Theorem pomodoro_hint_registered config model memory clock update_time_interval a :
  build_agent config model memory clock update_time_interval = Return a →
  DEFAULT_MEMORY_COMPONENT_NAME ≠ "ScheduledHint" →
  ∃ c hint,
    getitem (context_components a) "ScheduledHint" = Some c
    ∧ hints_of c = [hint]
    ∧ (∀ chain_of_thought clock_now,
         hint chain_of_thought clock_now
         = name config +:+ " should stay on topic: " +:+ goal config +:+ ".")
    ∧ (goal config = "" →
       ∀ chain_of_thought clock_now,
         hint chain_of_thought clock_now = name config +:+ " should stay on topic: .").
Proof.
  intros ->%build_agent_Return Hne. simpl.
  exists (pomodoro config model clock), (pomodoro_reminder config). split_and!.
  - unfold components_of_agent, components_of_agent_0, register.
    assert ("ScheduledHint" ≠ the_goal_label) by done.
    destruct (overarching_goal config) as [og|]; rewrite !getitem_setitem;
      repeat case_decide; first [reflexivity|congruence].
  - done.
  - done.
  - intros Hgoal chain_of_thought clock_now.
    unfold pomodoro_reminder, get_pomodoro_reminder. by rewrite Hgoal.
Qed.


Lemma last_char_append (s t : string) :
  last_char (s +:+ t)
  = match last_char t with Some c => Some c | None => last_char s end.
Proof.
  induction s as [|a s IH].
  - change ("" +:+ t) with t. by destruct (last_char t).
  - change (String a s +:+ t) with (String a (s +:+ t)). simpl.
    rewrite IH. by destruct (last_char t), (last_char s).
Qed.

Lemma paranoia_label_last_char config :
  last_char (paranoia_label config) = Some "N"%char.
Proof. unfold paranoia_label. by rewrite !last_char_append. Qed.

Lemma pre_act_keys_entity_components config model clock :
  omap pre_act_key_of (entity_components config model clock)
  = [ LF +:+ "Current time"; observation_label; observation_summary_label;
      relevant_memories_label; self_perception_label config;
      paranoia_label config; situation_perception_label config;
      person_by_situation_label config; options_perception_label config;
      best_option_perception_label config; pomodoro_label config;
      identity_label ].
Proof. reflexivity. Qed.

(** Two labels differ in their last character, or where their literal
    beginnings part. *)
Ltac labels_differ config :=
  let Heq := fresh "Heq" in
  intros Heq;
  first
    [ by (apply (f_equal last_char) in Heq;
          rewrite ?paranoia_label_last_char in Heq;
          unfold self_perception_label, situation_perception_label,
            person_by_situation_label, options_perception_label,
            best_option_perception_label, pomodoro_label in Heq;
          rewrite ?last_char_append in Heq; simpl in Heq; discriminate)
    | by (cbv in Heq; discriminate) ].

(** X10: whatever the agent's name, no two of the components built, the
    goal included, share a [pre_act_key]. *)
Theorem pre_act_keys_distinct config model clock :
  NoDup (omap pre_act_key_of
           (entity_components config model clock
            ++ option_list (overarching_goal config))).
Proof.
  rewrite omap_app, pre_act_keys_entity_components.
  assert (omap pre_act_key_of (option_list (overarching_goal config))
          ⊆ [the_goal_label]) as Hsub.
  { unfold overarching_goal. destruct (bool_of_str (goal config)); simpl.
    - done.
    - apply list_subseteq_nil. }
  assert (NoDup (omap pre_act_key_of (option_list (overarching_goal config)))) as Hnodup.
  { unfold overarching_goal. destruct (bool_of_str (goal config)); simpl.
    - apply NoDup_singleton.
    - apply NoDup_nil_2. }
  apply NoDup_app. split_and!; [|intros x Hx Hgoal%Hsub|done].
  - repeat (apply NoDup_cons; split;
            [rewrite ?not_elem_of_cons; split_and?;
             try (by apply not_elem_of_nil); labels_differ config|]).
    apply NoDup_nil_2.
  - apply list_elem_of_singleton in Hgoal as ->. revert Hx.
    apply not_elem_of_cons; split; [labels_differ config|].
    rewrite ?not_elem_of_cons; split_and?;
      try (by apply not_elem_of_nil); labels_differ config.
Qed.

End with_library.

(** *** The properties at the sample inputs *)

#[local] Existing Instance sample_library.

Lemma sample_memory_name_fresh : DEFAULT_MEMORY_COMPONENT_NAME ∉ class_names.
Proof. apply (bool_decide_unpack _). by vm_compute. Qed.

(** X2 at [bob]. *)
Lemma component_order_explicit_bob :
  (DEFAULT_MEMORY_COMPONENT_NAME ∉ class_names)
  ∧ sample_build bob = Return (sample_agent bob)
  ∧ component_order (act_component (sample_agent bob))
    = "Instructions" :: goal_dependency bob
      ++ [ "ReportFunction"; "Observation"; "ObservationSummary";
           "AllSimilarMemories"; "SelfPerception"; "Constant";
           "SituationPerception"; "PersonBySituation";
           "AvailableOptionsPerception"; "BestOptionPerception";
           "ScheduledHint"; "IdentityWithoutPreAct";
           DEFAULT_MEMORY_COMPONENT_NAME ].
Proof.
  split; [exact sample_memory_name_fresh|]. split; [by vm_compute|].
  apply (component_order_explicit bob sample_model sample_memory sample_clock 0%Z);
    [exact sample_memory_name_fresh|by vm_compute].
Defined.

(** X3 at [bob] and the time display. *)
Lemma component_order_resolves_bob :
  sample_build bob = Return (sample_agent bob)
  ∧ "ReportFunction" ∈ component_order (act_component (sample_agent bob))
  ∧ is_Some (getitem (context_components (sample_agent bob)) "ReportFunction").
Proof.
  assert ("ReportFunction" ∈ component_order (act_component (sample_agent bob)))
    as Hin.
  { apply (bool_decide_unpack _). by vm_compute. }
  split; [by vm_compute|]. split; [exact Hin|].
  apply (component_order_resolves bob sample_model sample_memory sample_clock 0%Z
           (sample_agent bob) "ReportFunction"); [by vm_compute|exact Hin].
Defined.

(** X4 at [bob]. *)
Lemma component_order_Permutation_bob :
  DEFAULT_MEMORY_COMPONENT_NAME ≠ the_goal_label
  ∧ sample_build bob = Return (sample_agent bob)
  ∧ component_order (act_component (sample_agent bob))
    ≡ₚ keys (context_components (sample_agent bob))
  ∧ NoDup (component_order (act_component (sample_agent bob)))
  ∧ length (component_order (act_component (sample_agent bob)))
    = length (context_components (sample_agent bob)).
Proof.
  split; [done|]. split; [by vm_compute|].
  apply (component_order_Permutation bob sample_model sample_memory sample_clock 0%Z);
    [done|by vm_compute].
Defined.

(** X5 at [bob] and the paranoia. *)
Lemma component_registered_under_class_name_bob :
  sample_build bob = Return (sample_agent bob)
  ∧ paranoia bob ∈ entity_components bob sample_model sample_clock
  ∧ _get_class_name (paranoia bob) ≠ DEFAULT_MEMORY_COMPONENT_NAME
  ∧ getitem (context_components (sample_agent bob)) (_get_class_name (paranoia bob))
    = Some (paranoia bob).
Proof.
  assert (paranoia bob ∈ entity_components bob sample_model sample_clock) as Hc
    by entity_component_elem.
  split; [by vm_compute|]. split; [exact Hc|]. split; [done|].
  apply (component_registered_under_class_name bob sample_model sample_memory
           sample_clock 0%Z (sample_agent bob) (paranoia bob));
    [by vm_compute|exact Hc|done].
Defined.

(** X6 at [bob]. *)
Lemma memory_component_registered_bob :
  sample_build bob = Return (sample_agent bob)
  ∧ DEFAULT_MEMORY_COMPONENT_NAME ≠ the_goal_label
  ∧ getitem (context_components (sample_agent bob)) DEFAULT_MEMORY_COMPONENT_NAME
    = Some (MemoryComponent (mkAssociativeMemoryBank sample_memory)).
Proof.
  split; [by vm_compute|]. split; [done|].
  apply (memory_component_registered bob sample_model sample_memory sample_clock 0%Z);
    [by vm_compute|done].
Defined.

(** X7 at [bob] and the best-option component. *)
Lemma dependencies_acyclic_bob :
  sample_build bob = Return (sample_agent bob)
  ∧ ¬ tc (depends_on (context_components (sample_agent bob)))
        "BestOptionPerception" "BestOptionPerception".
Proof.
  split; [by vm_compute|].
  apply (dependencies_acyclic bob sample_model sample_memory sample_clock 0%Z).
  by vm_compute.
Defined.

(** X8 at [bob]: the self perception quotes the identity under its label. *)
Lemma dependency_label_is_pre_act_key_bob :
  self_perception bob sample_model ∈ entity_components bob sample_model sample_clock
  ∧ ("IdentityWithoutPreAct", identity_label)
    ∈ components_of (self_perception bob sample_model)
  ∧ (("IdentityWithoutPreAct" = "ReportFunction"
      ∧ identity_label = "The current date/time is"
      ∧ pre_act_key_of (time_display sample_clock) = Some (LF +:+ "Current time"))
     ∨ ∃ c',
         ((c' ∈ entity_components bob sample_model sample_clock
           ∧ _get_class_name c' = "IdentityWithoutPreAct")
          ∨ (overarching_goal bob = Some c'
             ∧ "IdentityWithoutPreAct" = the_goal_label))
         ∧ pre_act_key_of c' = Some identity_label).
Proof.
  assert (self_perception bob sample_model
          ∈ entity_components bob sample_model sample_clock) as Hc
    by entity_component_elem.
  assert (("IdentityWithoutPreAct", identity_label)
          ∈ components_of (self_perception bob sample_model)) as Hitem
    by apply list_elem_of_here.
  split; [exact Hc|]. split; [exact Hitem|].
  apply (dependency_label_is_pre_act_key bob sample_model sample_clock
           (self_perception bob sample_model) "IdentityWithoutPreAct" identity_label);
    [exact Hc|exact Hitem].
Defined.

(** X12 at [ann], who has no goal. *)
Lemma pomodoro_hint_registered_ann :
  sample_build ann = Return (sample_agent ann)
  ∧ DEFAULT_MEMORY_COMPONENT_NAME ≠ "ScheduledHint"
  ∧ ∃ c hint,
      getitem (context_components (sample_agent ann)) "ScheduledHint" = Some c
      ∧ hints_of c = [hint]
      ∧ (∀ chain_of_thought clock_now,
           hint chain_of_thought clock_now
           = name ann +:+ " should stay on topic: " +:+ goal ann +:+ ".")
      ∧ (goal ann = "" →
         ∀ chain_of_thought clock_now,
           hint chain_of_thought clock_now = name ann +:+ " should stay on topic: .").
Proof.
  split; [by vm_compute|]. split; [done|].
  apply (pomodoro_hint_registered ann sample_model sample_memory sample_clock 0%Z);
    [by vm_compute|done].
Defined.

End factory_more.
